(** * ShockScore: the backend routes and the Netlify frame function

    A shallow embedding of the JavaScript that serves the Shock Score API:

    - [backend/routes/analyze.js]          (module [Analyze])
    - [backend/routes/analyze-simple.js]   (module [AnalyzeSimple])
    - [netlify/functions/analyze-frame.js] (module [Netlify])
    - [backend/routes/video.js]            (module [Video])

    Modelling conventions.

    - A JavaScript number is an exact rational ([Q]).  Every finite double
      is a rational; the rounding error of double arithmetic is not
      modelled, so an equation proved here with [==] holds in the program
      up to floating-point epsilon.  Where [Math.round] is applied to a
      value that is an exact tie in rational arithmetic, the double may
      fall just below the tie and the program then returns the tenth below;
      the statements about rounding leave room for that.
    - A JavaScript object whose insertion order is observed
      ([Object.values], [Object.entries]) is an association list in
      insertion order.
    - [Math.random()] reads the next sample of an explicit generator state
      that is threaded through the handlers.
    - The file system seen by [fs.promises] is a finite map from paths to
      nodes, threaded through the video handlers.  Paths are formed by
      concatenation, which is what [path.join] does for an id that is an
      ordinary file name ([ordinary_name]); for such an id a path that
      holds nothing is reported by [fs] as ENOENT. *)

From Stdlib Require Import ZArith QArith Qround Qminmax Lqa Lia List Ascii.
From stdpp Require Import base strings gmap.
Import ListNotations.

Set Warnings "-register-all".

Local Open Scope Q_scope.

(** ** JavaScript values *)

Module JS.

(** An object with numeric properties, in insertion order. *)
Definition obj := list (string * Q).

(** Property read [o.k]; [None] is [undefined]. *)
Fixpoint get (o : obj) (k : string) : option Q :=
  match o with
  | [] => None
  | (k', v) :: o' => if String.eqb k' k then Some v else get o' k
  end.

(** Property write [o[k] = v]: an existing key keeps its position, a new
    one is appended. *)
Fixpoint set (o : obj) (k : string) (v : Q) : obj :=
  match o with
  | [] => [(k, v)]
  | (k', v') :: o' =>
      if String.eqb k' k then (k', v) :: o' else (k', v') :: set o' k v
  end.

Definition keys (o : obj) : list string := map fst o.
Definition values (o : obj) : list Q := map snd o.

(** [x || 0] for a property read: [undefined] and [0] are falsy. *)
Definition or_zero (x : option Q) : Q :=
  match x with
  | Some v => if Qeq_bool v 0 then 0 else v
  | None => 0
  end.

(** [a > b] on numbers. *)
Definition gt (a b : Q) : bool := negb (Qle_bool a b).

(** [Math.min(a, b)]. *)
Definition Math_min (a b : Q) : Q := Qmin a b.

(** [Math.round(x)]: the nearest integer, a tie going up. *)
Definition Math_round (x : Q) : Z := Qfloor (x + (1 # 2)).

(** What [JSON.stringify] sees. *)
Inductive json : Type :=
| JBool (b : bool)
| JNum (q : Q)
| JStr (s : string)
| JObj (fields : list (string * json)).

Definition of_obj (o : obj) : json :=
  JObj (map (fun kv => (fst kv, JNum (snd kv))) o).


Fixpoint lookup_field (fs : list (string * json)) (k : string) : option json :=
  match fs with
  | [] => None
  | (k', v) :: fs' => if String.eqb k' k then Some v else lookup_field fs' k
  end.

Definition field (j : json) (k : string) : option json :=
  match j with
  | JObj fs => lookup_field fs k
  | _ => None
  end.

(** ** [Math.random] *)

Record Rng := { samples : nat -> Q; cursor : nat }.

Definition random (g : Rng) : Q * Rng :=
  (samples g (cursor g), {| samples := samples g; cursor := S (cursor g) |}).

(** The contract of [Math.random]: every sample is in [0, 1). *)
Definition rng_ok (g : Rng) : Prop := forall n, 0 <= samples g n /\ samples g n < 1.

(** A computation that may draw random numbers. *)
Definition Rand (A : Type) : Type := Rng -> A * Rng.

Definition ret {A} (a : A) : Rand A := fun g => (a, g).

Definition bind {A B} (m : Rand A) (k : A -> Rand B) : Rand B :=
  fun g => let (a, g') := m g in k a g'.

End JS.

Import JS.

Notation "'let*' x ':=' m 'in' k" := (bind m (fun x => k))
  (at level 10, x name, m at level 100, k at level 200).

(** What an Express handler does with its request: it answers with a status
    and a JSON body, or hands an error to the error middleware. *)
Inductive Outcome : Type :=
| Respond (status : Z) (body : json)
| Next (err : string).

(** [res.json(body)] answers with status 200. *)
Definition res_json (body : json) : Outcome := Respond 200 body.

(** ** The shock score ([calculateShockScore], the same text in all three
    files) *)

Module ShockScore.

Definition FEAR_WEIGHT : Q := 2.
Definition SURPRISE_WEIGHT : Q := 15 # 10.
Definition DISGUST_WEIGHT : Q := 8 # 10.
Definition HAPPY_WEIGHT : Q := 3 # 10.
Definition ANGRY_WEIGHT : Q := 2 # 10.
Definition SAD_WEIGHT : Q := 1 # 10.

Definition weighted (emotions : obj) : Q :=
  or_zero (get emotions "fear") * FEAR_WEIGHT +
  or_zero (get emotions "surprise") * SURPRISE_WEIGHT +
  or_zero (get emotions "disgust") * DISGUST_WEIGHT +
  or_zero (get emotions "happy") * HAPPY_WEIGHT +
  or_zero (get emotions "angry") * ANGRY_WEIGHT +
  or_zero (get emotions "sad") * SAD_WEIGHT.

Definition maxPossible : Q := 100 * (FEAR_WEIGHT + SURPRISE_WEIGHT).

Definition calculateShockScore (emotions : obj) : Q :=
  let score := weighted emotions in
  let normalized := Math_min 100 (score / maxPossible * 100) in
  inject_Z (Math_round (normalized * 10)) / 10.

End ShockScore.

Import ShockScore.

(** ** [backend/routes/analyze.js]: POST /api/analyze/frame *)

Module Analyze.

(** [results[0]] of the analyzer script, as far as the handler reads it. *)
Record Analysis := {
  faceDetected : bool;
  emotions : option obj;
  dominantEmotion : option string
}.

(** A settled [PythonShell.run(scriptPath, options)]: the promise is
    rejected (the script ends with an error) or resolved with the parsed
    lines of output.  A run that never settles (Python cannot be started,
    the script prints a line that is not JSON, the script hangs) is not a
    value of this type: the handler then sends no answer, and it sets no
    time limit. *)
Inductive PythonRun : Type :=
| Rejects (err : string)
| Resolves (results : list Analysis).

(** A file-system call that the handler awaits. *)
Inductive IO : Type :=
| Done
| Fails (err : string).

Record Env := {
  mkdir : IO;
  writeFile : IO;
  python : PythonRun
}.

(** [req.file], set by multer when the upload has a frame. *)
Record Request := { file : option string }.

(** A property whose value may be [undefined]: [JSON.stringify] drops it. *)
Definition optional (k : string) (v : option json) : list (string * json) :=
  match v with
  | Some j => [(k, j)]
  | None => []
  end.

Definition no_face_body : json :=
  JObj [("faceDetected", JBool false);
        ("message", JStr "No face detected in frame")].

Definition no_face : Outcome := res_json no_face_body.

(** The [catch (pythonError)] block. *)
Definition mock_fallback : Rand Outcome :=
  let* r1 := random in
  let* r2 := random in
  let* r3 := random in
  let* r4 := random in
  let* r5 := random in
  let* r6 := random in
  let* r7 := random in
  let* r8 := random in
  ret (res_json (JObj [
    ("faceDetected", JBool true);
    ("emotions", of_obj [("angry", r1 * 10); ("disgust", r2 * 5);
                         ("fear", r3 * 30); ("happy", r4 * 20);
                         ("sad", r5 * 15); ("surprise", r6 * 20);
                         ("neutral", r7 * 40)]);
    ("dominantEmotion", JStr "neutral");
    ("shockScore", JNum (r8 * 50));
    ("_note", JStr "Using mock data - Python engine unavailable")])).

(** The inner [try] once the analyzer has answered. *)
Definition on_results (results : list Analysis) : Rand Outcome :=
  match head results with
  | Some analysis =>
      if faceDetected analysis then
        match emotions analysis with
        | Some emotions =>
            let shockScore := calculateShockScore emotions in
            ret (res_json (JObj (
              [("faceDetected", JBool true);
               ("emotions", of_obj emotions)] ++
              optional "dominantEmotion"
                (option_map JStr (dominantEmotion analysis)) ++
              [("shockScore", JNum shockScore)])))
        | None =>
            (* [emotions.fear] on [undefined] throws inside the [try] *)
            mock_fallback
        end
      else ret no_face
  | None => ret no_face
  end.

Definition analyze_frame (req : Request) (env : Env) : Rand Outcome :=
  match file req with
  | None => ret (Respond 400 (JObj [("error", JStr "No frame provided")]))
  | Some buffer =>
      match mkdir env with
      | Fails err => ret (Next err)
      | Done =>
          match writeFile env with
          | Fails err => ret (Next err)
          | Done =>
              match python env with
              | Resolves results => on_results results
              | Rejects pythonError => mock_fallback
              end
          end
      end
  end.

End Analyze.

(** ** The mock analysis shared by [backend/routes/analyze-simple.js] and
    [netlify/functions/analyze-frame.js] (the same text in both) *)

Module Mock.

Definition mockEmotions : Rand obj :=
  let* r1 := random in
  let* r2 := random in
  let* r3 := random in
  let* r4 := random in
  let* r5 := random in
  let* r6 := random in
  let* r7 := random in
  ret [("angry", r1 * 15); ("disgust", r2 * 10); ("fear", 20 + r3 * 40);
       ("happy", r4 * 25); ("sad", r5 * 15); ("surprise", 10 + r6 * 30);
       ("neutral", 10 + r7 * 30)].

(** [Object.values(o).reduce((a, b) => a + b, 0)]. *)
Definition total (o : obj) : Q := fold_left Qplus (values o) 0.

(** The [for ... of Object.entries(mockEmotions)] loop. *)
Definition normalize (o : obj) : obj :=
  let total := total o in
  fold_left (fun normalized kv => set normalized (fst kv) (snd kv / total * 100))
            o [].

(** [Object.entries(o).reduce((a, b) => a[1] > b[1] ? a : b)[0]]; [None]
    is the TypeError of reducing an empty array. *)
Definition dominant (o : obj) : option string :=
  match o with
  | [] => None
  | e :: rest =>
      Some (fst (fold_left
        (fun a b => if Qle_bool (snd a) (snd b) then b else a) rest e))
  end.

(** The body of the [try] up to the answer: the normalized emotions, the
    dominant emotion and the shock score; [None] when it throws. *)
Definition analysis : Rand (option (obj * string * Q)) :=
  let* mock := mockEmotions in
  let normalized := normalize mock in
  match dominant normalized with
  | Some dominantEmotion =>
      let shockScore := calculateShockScore normalized in
      ret (Some (normalized, dominantEmotion, shockScore))
  | None => ret None
  end.

Definition aggregate (a : obj * string * Q) : list (string * json) :=
  let '(normalized, dominantEmotion, shockScore) := a in
  [("faceDetected", JBool true);
   ("emotions", of_obj normalized);
   ("dominantEmotion", JStr dominantEmotion);
   ("shockScore", JNum shockScore)].

Definition failure : json :=
  JObj [("faceDetected", JBool false); ("error", JStr "Reduce of empty array with no initial value")].

End Mock.

Module AnalyzeSimple.

Definition analyze_frame : Rand Outcome :=
  let* a := Mock.analysis in
  match a with
  | Some a => ret (res_json (JObj (Mock.aggregate a ++ [("_mode", JStr "mock")])))
  | None => ret (Respond 500 Mock.failure)
  end.

End AnalyzeSimple.

Module Netlify.

Inductive Body : Type :=
| Raw (s : string)
| Stringify (j : json).

Record Response := {
  statusCode : Z;
  headers : list (string * string);
  body : Body
}.

Record Event := { httpMethod : string }.

Definition json_headers : list (string * string) :=
  [("Access-Control-Allow-Origin", "*"); ("Content-Type", "application/json")].

Definition handler (event : Event) : Rand Response :=
  if String.eqb (httpMethod event) "OPTIONS" then
    ret {| statusCode := 200;
           headers := [("Access-Control-Allow-Origin", "*");
                       ("Access-Control-Allow-Headers", "Content-Type");
                       ("Access-Control-Allow-Methods", "POST, OPTIONS")];
           body := Raw "" |}
  else if negb (String.eqb (httpMethod event) "POST") then
    ret {| statusCode := 405;
           headers := json_headers;
           body := Stringify (JObj [("error", JStr "Method not allowed")]) |}
  else
    let* a := Mock.analysis in
    match a with
    | Some a =>
        ret {| statusCode := 200;
               headers := json_headers;
               body := Stringify (JObj (Mock.aggregate a ++
                         [("_mode", JStr "mock"); ("_platform", JStr "netlify")])) |}
    | None =>
        ret {| statusCode := 500;
               headers := json_headers;
               body := Stringify Mock.failure |}
    end.

End Netlify.

(** ** [backend/routes/video.js]: status, report and deletion *)

Module Video.

(** What a path holds: a file that can be read, or something that exists
    but whose read is rejected with an error code (EACCES, EISDIR). *)
Inductive Node : Type :=
| File (content : string)
| Unreadable (code : string).

Abbreviation FS := (gmap string Node).

Definition uploads : string := "backend/uploads".

(** [path.join(dir, name)] for a name that is an ordinary file name
    ([ordinary_name], below): [path.join] then normalizes nothing away. *)
Definition path_join (dir name : string) : string := dir +:+ "/" +:+ name.

Definition videoPath (videoId : string) : string := path_join uploads videoId.

Definition reportPath (videoId : string) : string :=
  path_join uploads (videoId +:+ "-report.json").

(** [fs.access(p)] resolves when the path exists.  (For the path of an
    ordinary id it is rejected only when the path holds nothing.) *)
Definition access (fs : FS) (p : string) : bool :=
  match fs !! p with
  | Some _ => true
  | None => false
  end.

(** [fs.readFile(p, 'utf8')]: the content, or the code of the error.  (For
    the path of an ordinary id, a path that holds nothing is ENOENT.) *)
Definition readFile (fs : FS) (p : string) : string + string :=
  match fs !! p with
  | Some (File content) => inl content
  | Some (Unreadable code) => inr code
  | None => inr "ENOENT"
  end.

(** A directory is the node whose read is rejected with EISDIR. *)
Definition is_directory (node : option Node) : bool :=
  match node with
  | Some (Unreadable code) => String.eqb code "EISDIR"
  | _ => false
  end.

(** [fs.unlink(p).catch(() => {})]: a file is removed; on a directory, or on
    a path that holds nothing, the call is rejected, the rejection is
    swallowed and nothing changes. *)
Definition unlink (fs : FS) (p : string) : FS :=
  if is_directory (fs !! p) then fs else delete p fs.

(** GET /api/videos/:id/status *)
Definition get_status (fs : FS) (videoId : string) : Outcome * FS :=
  let reportPath := reportPath videoId in
  if access fs reportPath then
    (res_json (JObj [("videoId", JStr videoId);
                     ("status", JStr "completed");
                     ("reportAvailable", JBool true)]), fs)
  else
    (res_json (JObj [("videoId", JStr videoId);
                     ("status", JStr "processing");
                     ("reportAvailable", JBool false)]), fs).

Section Report.

(** [JSON.parse]; [None] is its SyntaxError. *)
Variable JSON_parse : string -> option json.

(** GET /api/videos/:id/report *)
Definition get_report (fs : FS) (videoId : string) : Outcome * FS :=
  let reportPath := reportPath videoId in
  match readFile fs reportPath with
  | inl reportData =>
      match JSON_parse reportData with
      | Some report =>
          (res_json (JObj [("videoId", JStr videoId); ("report", report)]), fs)
      | None => (Next "SyntaxError", fs)
      end
  | inr code =>
      if String.eqb code "ENOENT" then
        (Respond 404 (JObj [("error",
           JStr "Report not found. Video may still be processing.")]), fs)
      else (Next code, fs)
  end.

End Report.

(** DELETE /api/videos/:id *)
Definition delete_video (fs : FS) (videoId : string) : Outcome * FS :=
  let fs := unlink fs (videoPath videoId) in
  let fs := unlink fs (reportPath videoId) in
  (res_json (JObj [("message", JStr "Video and report deleted successfully");
                   ("videoId", JStr videoId)]), fs).

End Video.

(** ** The formula of the specification (section 4.3), for comparison *)

Module SpecModel.

Definition W_FEAR : Q := 2.
Definition W_SURPRISE : Q := 15 # 10.

Definition clamp (x lo hi : Q) : Q := Qmax lo (Qmin hi x).

Definition raw_score (baseline current : obj) : Q :=
  let fear_delta := or_zero (get current "fear") - or_zero (get baseline "fear") in
  let surprise_delta :=
    or_zero (get current "surprise") - or_zero (get baseline "surprise") in
  let tension := (or_zero (get current "fear") + or_zero (get current "disgust")) / 2 in
  fear_delta * W_FEAR + surprise_delta * W_SURPRISE + tension.

Definition score (baseline current : obj) : Q := clamp (raw_score baseline current) 0 100.

End SpecModel.

(** ** Concrete inputs *)


Definition scenario_frame : obj := [("fear", 40); ("surprise", 20); ("disgust", 10)].

(** A generator whose every sample is 1/2. *)
Definition half_rng : Rng := {| samples := fun _ => 1 # 2; cursor := 0 |}.

(** All values of an object are non-negative. *)
Definition nonneg (o : obj) : Prop := forall k v, get o k = Some v -> 0 <= v.

(** The analyzer found no face: [results[0]] is missing or its
    [faceDetected] is false. *)
Definition detects_no_face (results : list Analyze.Analysis) : Prop :=
  match head results with
  | Some analysis => Analyze.faceDetected analysis = false
  | None => True
  end.

(** ** The frame-analysis endpoints, side by side *)

Inductive Endpoint : Type :=
| ExpressAnalyze (req : Analyze.Request) (env : Analyze.Env)
| ExpressAnalyzeSimple
| NetlifyFunction (event : Netlify.Event).

(** The status an endpoint answers with, and the JSON body that the handler
    itself wrote, if any.  An error handed to the Express error middleware
    is answered 500 by [server.js]; that body is not the handler's. *)
Definition serve (e : Endpoint) (g : Rng) : Z * option json :=
  match e with
  | ExpressAnalyze req env =>
      match fst (Analyze.analyze_frame req env g) with
      | Respond status body => (status, Some body)
      | Next err => (500%Z, None)
      end
  | ExpressAnalyzeSimple =>
      match fst (AnalyzeSimple.analyze_frame g) with
      | Respond status body => (status, Some body)
      | Next err => (500%Z, None)
      end
  | NetlifyFunction event =>
      let r := fst (Netlify.handler event g) in
      (Netlify.statusCode r,
       match Netlify.body r with
       | Netlify.Stringify j => Some j
       | Netlify.Raw _ => None
       end)
  end.



(** ** More concrete inputs *)

Definition frame_request : Analyze.Request := {| Analyze.file := Some "jpeg" |}.

Definition env_analyzer_rejects : Analyze.Env :=
  {| Analyze.mkdir := Analyze.Done;
     Analyze.writeFile := Analyze.Done;
     Analyze.python :=
       Analyze.Rejects "ModuleNotFoundError: No module named 'deepface'" |}.

Definition env_no_face : Analyze.Env :=
  {| Analyze.mkdir := Analyze.Done;
     Analyze.writeFile := Analyze.Done;
     Analyze.python := Analyze.Resolves
       [{| Analyze.faceDetected := false;
           Analyze.emotions := None;
           Analyze.dominantEmotion := None |}] |}.

Definition post_event : Netlify.Event := {| Netlify.httpMethod := "POST" |}.

Definition parse_empty_object (data : string) : option json := Some (JObj []).

Definition fs_with_report : Video.FS :=
  {[ Video.reportPath "video-1.mp4" := Video.File "{}" ]}.

Definition fs_with_report_and_video : Video.FS :=
  <[ Video.videoPath "video-1.mp4" := Video.File "mp4" ]> fs_with_report.

(** ** [backend/routes/video.js]: upload and processing *)

Module VideoUpload.

(** [req.file] as multer's disk storage leaves it. *)
Record UploadedFile := {
  filename : string;
  originalname : string;
  size : Q;
  path : string
}.

(** A text field of the multipart body, [req.body.k], for a body whose
    fields are plain and sent once ([plain_body]): multer then leaves each
    as a string.  (A repeated field becomes an array and a field named
    [k[x]] an object.) *)
Fixpoint text_field (body : list (string * string)) (k : string) : option string :=
  match body with
  | [] => None
  | (k', v) :: body' => if String.eqb k' k then Some v else text_field body' k
  end.

(** [x || d] on a text field: [undefined] and the empty string are falsy. *)
Definition or_default (x : option string) (d : string) : string :=
  match x with
  | Some v => if String.eqb v "" then d else v
  | None => d
  end.

(** POST /api/videos/upload; [uploadedAt] is [new Date().toISOString()]. *)
Definition upload (file : option UploadedFile) (body : list (string * string))
    (uploadedAt : string) : Outcome :=
  match file with
  | None => Respond 400 (JObj [("error", JStr "No video file uploaded")])
  | Some file =>
      let filmTitle := text_field body "filmTitle" in
      let genre := text_field body "genre" in
      let studoName := text_field body "studoName" in
      res_json (JObj [
        ("message", JStr "Video uploaded successfully");
        ("video", JObj [("id", JStr (filename file));
                        ("originalName", JStr (originalname file));
                        ("size", JNum (size file));
                        ("path", JStr (path file));
                        ("uploadedAt", JStr uploadedAt)]);
        ("metadata", JObj [("filmTitle", JStr (or_default filmTitle "Untitled"));
                           ("genre", JStr (or_default genre "Horror"));
                           ("studioName", JStr (or_default studoName "Unknown"))])])
  end.


End VideoUpload.

(** ** [backend/server.js]: the error middleware *)

Module Server.

(** The error as the middleware reads it: [err.message], [err.status],
    [err.stack]. *)
Record Err := {
  message : string;
  status : option Z;
  stack : string
}.

(** [err.status || 500]: a missing status and 0 are falsy. *)
Definition status_or_500 (e : Err) : Z :=
  match status e with
  | Some s => if (s =? 0)%Z then 500%Z else s
  | None => 500%Z
  end.

(** [err.message || 'Internal Server Error']. *)
Definition message_or_default (e : Err) : string :=
  if String.eqb (message e) "" then "Internal Server Error" else message e.

(** [app.use((err, req, res, next) => ...)]; [development] is
    [process.env.NODE_ENV === 'development']. *)
Definition errorHandler (development : bool) (e : Err) : Z * json :=
  (status_or_500 e,
   JObj [("error", JObj (
     [("message", JStr (message_or_default e));
      ("status", JNum (inject_Z (status_or_500 e)))] ++
     (if development then [("stack", JStr (stack e))] else [])))]).

(** What the client receives for a handler's outcome.  The errors that the
    routes hand over (from [fs] and [JSON.parse]) carry no [status]. *)
Definition answer (development : bool) (stack : string) (o : Outcome) : Z * json :=
  match o with
  | Respond status body => (status, body)
  | Next err =>
      errorHandler development {| message := err; status := None; stack := stack |}
  end.

End Server.

(** ** [frontend/src/components/WebcamShockScore.js] *)

Module Webcam.

(** [a < b] on numbers. *)
Definition lt (a b : Q) : bool := negb (Qle_bool b a).

Definition getShockScoreColor (score : Q) : string :=
  if lt score 20 then "#10b981"
  else if lt score 40 then "#f59e0b"
  else if lt score 60 then "#f97316"
  else if lt score 80 then "#ef4444"
  else "#dc2626".

End Webcam.

(** ** Inputs of the further examples *)

(** The six categories that [calculateShockScore] reads. *)
Definition scored_keys : list string :=
  ["fear"; "surprise"; "disgust"; "happy"; "angry"; "sad"].

(** The sum of the six scored values, each read as the score reads it. *)
Definition scored_sum (e : obj) : Q :=
  or_zero (get e "fear") + or_zero (get e "surprise") +
  or_zero (get e "disgust") + or_zero (get e "happy") +
  or_zero (get e "angry") + or_zero (get e "sad").

Definition three_emotions : obj := [("fear", 50); ("happy", 30); ("neutral", 20)].

Definition uploaded_video : VideoUpload.UploadedFile :=
  {| VideoUpload.filename := "video-1.mp4";
     VideoUpload.originalname := "screening.mp4";
     VideoUpload.size := 1024;
     VideoUpload.path := "backend/uploads/video-1.mp4" |}.

Definition parse_nothing (data : string) : option json := None.

Definition env_face : Analyze.Env :=
  {| Analyze.mkdir := Analyze.Done;
     Analyze.writeFile := Analyze.Done;
     Analyze.python := Analyze.Resolves
       [{| Analyze.faceDetected := true;
           Analyze.emotions := Some three_emotions;
           Analyze.dominantEmotion := Some "fear" |}] |}.


Definition field_of_status_flag (o : Outcome) : option json :=
  match o with
  | Respond _ body => field body "reportAvailable"
  | Next _ => None
  end.

(** ** What the answers of the frame endpoints hold *)





(** ** Ordinary ids and plain bodies *)




(** A field name without brackets. *)
Fixpoint bracket_free (k : string) : bool :=
  match k with
  | EmptyString => true
  | String a k' => negb (Ascii.eqb a "["%char) && bracket_free k'
  end.

(** A multipart body whose text fields are plain and sent once each. *)
Definition plain_body (body : list (string * string)) : Prop :=
  List.NoDup (map fst body) /\
  Forall (fun k => bracket_free k = true) (map fst body).

(** ** Proof steps that recur *)

(** The bounds of the next eight samples of a generator that keeps the
    contract of [Math.random]. *)
Ltac sample_bounds Hg g :=
  pose proof (Hg (0 + cursor g)%nat) as [? ?];
  pose proof (Hg (1 + cursor g)%nat) as [? ?];
  pose proof (Hg (2 + cursor g)%nat) as [? ?];
  pose proof (Hg (3 + cursor g)%nat) as [? ?];
  pose proof (Hg (4 + cursor g)%nat) as [? ?];
  pose proof (Hg (5 + cursor g)%nat) as [? ?];
  pose proof (Hg (6 + cursor g)%nat) as [? ?];
  pose proof (Hg (7 + cursor g)%nat) as [? ?].



(** ** Facts about the JavaScript primitives *)

Lemma or_zero_Some (v : Q) : or_zero (Some v) == v.
Proof.
  unfold or_zero. destruct (Qeq_bool v 0) eqn:E; [|reflexivity].
  apply Qeq_bool_eq in E. symmetry. exact E.
Qed.

Lemma or_zero_nonneg (o : obj) (k : string) : nonneg o -> 0 <= or_zero (get o k).
Proof.
  intros H. destruct (get o k) as [v|] eqn:E.
  - rewrite or_zero_Some. exact (H k v E).
  - simpl. lra.
Qed.

Lemma get_set_eq (o : obj) (k : string) (v : Q) : get (set o k v) k = Some v.
Proof.
  induction o as [|[k' v'] o IH]; simpl.
  - now rewrite String.eqb_refl.
  - destruct (String.eqb k' k) eqn:E; simpl; rewrite E; auto.
Qed.

Lemma get_set_ne (o : obj) (k k' : string) (v : Q) :
  k <> k' -> get (set o k v) k' = get o k'.
Proof.
  intros Hne. induction o as [|[k0 v0] o IH]; simpl.
  - destruct (String.eqb k k') eqn:E; [|reflexivity].
    apply String.eqb_eq in E. contradiction.
  - destruct (String.eqb k0 k) eqn:E; simpl.
    + apply String.eqb_eq in E. subst k0.
      destruct (String.eqb k k') eqn:E'; [|reflexivity].
      apply String.eqb_eq in E'. contradiction.
    + now rewrite IH.
Qed.

Lemma Math_round_mono (x y : Q) : x <= y -> (Math_round x <= Math_round y)%Z.
Proof. intros H. unfold Math_round. apply Qfloor_resp_le. lra. Qed.


(** ** Facts about the shock score *)

Lemma scaled_by_maxPossible (s : Q) : s / maxPossible * 100 == s * (2 # 7).
Proof. unfold maxPossible, FEAR_WEIGHT, SURPRISE_WEIGHT. field. Qed.

Lemma weighted_nonneg (e : obj) : nonneg e -> 0 <= weighted e.
Proof.
  intros H. unfold weighted, FEAR_WEIGHT, SURPRISE_WEIGHT, DISGUST_WEIGHT,
    HAPPY_WEIGHT, ANGRY_WEIGHT, SAD_WEIGHT.
  pose proof (or_zero_nonneg e "fear" H).
  pose proof (or_zero_nonneg e "surprise" H).
  pose proof (or_zero_nonneg e "disgust" H).
  pose proof (or_zero_nonneg e "happy" H).
  pose proof (or_zero_nonneg e "angry" H).
  pose proof (or_zero_nonneg e "sad" H).
  lra.
Qed.

Lemma tenth_le (a b : Z) : (a <= b)%Z -> inject_Z a / 10 <= inject_Z b / 10.
Proof.
  intros H. rewrite Zle_Qle in H. unfold Qdiv.
  apply Qmult_le_compat_r; [exact H | discriminate].
Qed.

(** The score as a function of the weighted sum. *)
Lemma calculateShockScore_unfold (e : obj) :
  calculateShockScore e ==
  inject_Z (Math_round (Qmin 100 (weighted e * (2 # 7)) * 10)) / 10.
Proof.
  unfold calculateShockScore, Math_min.
  assert (E : Math_round (Qmin 100 (weighted e / maxPossible * 100) * 10) =
              Math_round (Qmin 100 (weighted e * (2 # 7)) * 10)).
  { unfold Math_round. apply Qfloor_comp.
    rewrite (scaled_by_maxPossible (weighted e)). reflexivity. }
  rewrite E. reflexivity.
Qed.

Lemma calculateShockScore_mono_weighted (e1 e2 : obj) :
  weighted e1 <= weighted e2 -> calculateShockScore e1 <= calculateShockScore e2.
Proof.
  intros H. rewrite !calculateShockScore_unfold.
  apply tenth_le. apply Math_round_mono.
  assert (Qmin 100 (weighted e1 * (2 # 7)) <= Qmin 100 (weighted e2 * (2 # 7))).
  { apply Q.min_le_compat_l. lra. }
  lra.
Qed.




(** C2: for non-negative emotion values the shock score lies in [0, 100]. *)
Theorem calculateShockScore_in_range (e : obj) :
  nonneg e -> 0 <= calculateShockScore e /\ calculateShockScore e <= 100.
Proof.
  intros H. pose proof (weighted_nonneg e H) as Hw.
  rewrite calculateShockScore_unfold.
  set (n := Qmin 100 (weighted e * (2 # 7))).
  assert (Hn0 : 0 <= n) by (apply Q.min_glb; lra).
  assert (Hn1 : n <= 100) by apply Q.le_min_l.
  split.
  - apply Qle_trans with (inject_Z (Math_round 0) / 10).
    + vm_compute. discriminate.
    + apply tenth_le, Math_round_mono. lra.
  - apply Qle_trans with (inject_Z (Math_round 1000) / 10).
    + apply tenth_le, Math_round_mono. lra.
    + vm_compute. discriminate.
Qed.

Lemma calculateShockScore_in_range_witness :
  0 <= calculateShockScore scenario_frame /\
  calculateShockScore scenario_frame <= 100.
Proof.
  apply (calculateShockScore_in_range scenario_frame).
  intros k v. unfold scenario_frame. simpl.
  repeat (match goal with
          | |- (if ?b then _ else _) = _ -> _ => destruct b
          end);
    intros E; inversion E; discriminate.
Defined.

(** The lower bound rests on the sign of the input: the code caps the score
    from above only, so a negative value gives a negative score. *)
Remark calculateShockScore_negative_input :
  calculateShockScore [("fear", -10 # 1)] == -(57 # 10).
Proof. vm_compute. reflexivity. Qed.

(** C8: the shock score is monotone non-decreasing in each category: two
    emotion inputs that agree on every category but one, where the second
    has the larger value, get scores in the same order.  (The sign of the
    values plays no part.) *)
Theorem calculateShockScore_monotone (e1 e2 : obj) (k : string) (v1 v2 : Q) :
  (forall k', k' <> k -> get e1 k' = get e2 k') ->
  get e1 k = Some v1 -> get e2 k = Some v2 -> v1 <= v2 ->
  calculateShockScore e1 <= calculateShockScore e2.
Proof.
  intros Hsame H1 H2 Hle.
  assert (Hk : forall c, or_zero (get e1 c) <= or_zero (get e2 c)).
  { intros c. destruct (String.eqb_spec c k) as [->|Hne].
    - rewrite H1, H2, !or_zero_Some. exact Hle.
    - rewrite (Hsame c Hne). apply Qle_refl. }
  apply calculateShockScore_mono_weighted.
  unfold weighted, FEAR_WEIGHT, SURPRISE_WEIGHT, DISGUST_WEIGHT,
    HAPPY_WEIGHT, ANGRY_WEIGHT, SAD_WEIGHT.
  pose proof (Hk "fear"). pose proof (Hk "surprise").
  pose proof (Hk "disgust"). pose proof (Hk "happy").
  pose proof (Hk "angry"). pose proof (Hk "sad"). lra.
Qed.

Lemma calculateShockScore_monotone_witness :
  calculateShockScore scenario_frame <=
  calculateShockScore (set scenario_frame "fear" 50).
Proof.
  apply (calculateShockScore_monotone scenario_frame
           (set scenario_frame "fear" 50) "fear" 40 50).
  - intros k' Hne. symmetry. apply get_set_ne. congruence.
  - reflexivity.
  - reflexivity.
  - discriminate.
Defined.

(** ** Facts about the mock analysis *)

(** The seven samples that one run of [mockEmotions] draws. *)
Lemma mockEmotions_run (g : Rng) :
  let r i := samples g (i + cursor g)%nat in
  Mock.mockEmotions g =
  ([("angry", r 0%nat * 15); ("disgust", r 1%nat * 10);
    ("fear", 20 + r 2%nat * 40); ("happy", r 3%nat * 25);
    ("sad", r 4%nat * 15); ("surprise", 10 + r 5%nat * 30);
    ("neutral", 10 + r 6%nat * 30)],
   {| samples := samples g; cursor := 7 + cursor g |}).
Proof. reflexivity. Qed.

(** The loop over the seven entries writes seven distinct keys. *)
Lemma normalize_seven (a b c d e f h : Q) :
  let o := [("angry", a); ("disgust", b); ("fear", c); ("happy", d);
            ("sad", e); ("surprise", f); ("neutral", h)] in
  let t := Mock.total o in
  Mock.normalize o =
  [("angry", a / t * 100); ("disgust", b / t * 100); ("fear", c / t * 100);
   ("happy", d / t * 100); ("sad", e / t * 100); ("surprise", f / t * 100);
   ("neutral", h / t * 100)].
Proof. reflexivity. Qed.

Lemma share_bounds (v t : Q) :
  0 <= v -> v <= t -> 0 < t -> 0 <= v / t * 100 /\ v / t * 100 <= 100.
Proof.
  intros Hv Hvt Ht.
  assert (H0 : 0 <= v / t) by (apply Qle_shift_div_l; [exact Ht | lra]).
  assert (H1 : v / t <= 1) by (apply Qle_shift_div_r; [exact Ht | lra]).
  split; lra.
Qed.

Lemma normalize_seven_sound (a b c d e f h : Q) :
  0 <= a -> 0 <= b -> 0 < c -> 0 <= d -> 0 <= e -> 0 <= f -> 0 <= h ->
  let o := [("angry", a); ("disgust", b); ("fear", c); ("happy", d);
            ("sad", e); ("surprise", f); ("neutral", h)] in
  Forall (fun v => 0 <= v /\ v <= 100) (values (Mock.normalize o)) /\
  Mock.total (Mock.normalize o) == 100.
Proof.
  intros Ha Hb Hc Hd He Hf Hh o.
  unfold o. rewrite normalize_seven.
  set (t := Mock.total _).
  assert (Et : t == 0 + a + b + c + d + e + f + h) by reflexivity.
  assert (Ht : 0 < t) by lra.
  split.
  - unfold values. simpl.
    repeat (apply List.Forall_cons; [apply share_bounds; lra|]).
    apply List.Forall_nil.
  - unfold Mock.total, values. simpl.
    transitivity ((0 + a + b + c + d + e + f + h) / t * 100).
    + field. lra.
    + rewrite <- Et. field. lra.
Qed.

(** C9: the mock values are non-negative, the fear value is at least 20,
    and so the total that the normalization divides by is positive. *)
Theorem mock_total_positive (g : Rng) :
  rng_ok g ->
  let mock := fst (Mock.mockEmotions g) in
  Forall (fun v => 0 <= v) (values mock) /\
  (exists fear, get mock "fear" = Some fear /\ 20 <= fear) /\
  0 < Mock.total mock /\ ~ Mock.total mock == 0.
Proof.
  intros Hg mock. unfold mock. rewrite mockEmotions_run. cbv zeta.
  sample_bounds Hg g.
  unfold Mock.total, values. simpl fst. simpl map. simpl fold_left.
  cbn [Nat.add] in *.
  split; [|split; [|split]].
  - repeat (apply List.Forall_cons; [lra|]). apply List.Forall_nil.
  - eexists. split; [reflexivity | lra].
  - lra.
  - lra.
Qed.

Lemma mock_total_positive_witness :
  let mock := fst (Mock.mockEmotions half_rng) in
  Forall (fun v => 0 <= v) (values mock) /\
  (exists fear, get mock "fear" = Some fear /\ 20 <= fear) /\
  0 < Mock.total mock /\ ~ Mock.total mock == 0.
Proof.
  apply (mock_total_positive half_rng).
  intros n. simpl. split; [discriminate | reflexivity].
Defined.

(** C3: the emotion values that the analyze-frame handler emits each lie in
    [0, 100] and sum to 100. *)
Theorem emitted_emotions_normalized (g : Rng) :
  rng_ok g ->
  exists normalized dominantEmotion shockScore g',
    Mock.analysis g = (Some (normalized, dominantEmotion, shockScore), g') /\
    fst (AnalyzeSimple.analyze_frame g) =
      Respond 200 (JObj [("faceDetected", JBool true);
                         ("emotions", of_obj normalized);
                         ("dominantEmotion", JStr dominantEmotion);
                         ("shockScore", JNum shockScore);
                         ("_mode", JStr "mock")]) /\
    Forall (fun v => 0 <= v /\ v <= 100) (values normalized) /\
    fold_left Qplus (values normalized) 0 == 100.
Proof.
  intros Hg.
  sample_bounds Hg g.
  unfold AnalyzeSimple.analyze_frame, Mock.analysis.
  unfold bind at 1 2 3. rewrite (mockEmotions_run g). cbv zeta.
  match goal with
  | |- context [Mock.normalize ?o] =>
      destruct (normalize_seven_sound
                  (samples g (0 + cursor g)%nat * 15)
                  (samples g (1 + cursor g)%nat * 10)
                  (20 + samples g (2 + cursor g)%nat * 40)
                  (samples g (3 + cursor g)%nat * 25)
                  (samples g (4 + cursor g)%nat * 15)
                  (10 + samples g (5 + cursor g)%nat * 30)
                  (10 + samples g (6 + cursor g)%nat * 30))
        as [Hrange Hsum]; try lra
  end.
  cbv zeta in Hrange, Hsum.
  rewrite normalize_seven in *. cbv zeta in *.
  do 4 eexists. split; [reflexivity|]. split; [reflexivity|].
  split; [exact Hrange | exact Hsum].
Qed.

Lemma emitted_emotions_normalized_witness :
  exists normalized dominantEmotion shockScore g',
    Mock.analysis half_rng = (Some (normalized, dominantEmotion, shockScore), g') /\
    fst (AnalyzeSimple.analyze_frame half_rng) =
      Respond 200 (JObj [("faceDetected", JBool true);
                         ("emotions", of_obj normalized);
                         ("dominantEmotion", JStr dominantEmotion);
                         ("shockScore", JNum shockScore);
                         ("_mode", JStr "mock")]) /\
    Forall (fun v => 0 <= v /\ v <= 100) (values normalized) /\
    fold_left Qplus (values normalized) 0 == 100.
Proof.
  apply (emitted_emotions_normalized half_rng).
  intros n. simpl. split; [discriminate | reflexivity].
Defined.

(** ** The reduction that picks the dominant emotion *)

Lemma Qle_bool_false_lt (a b : Q) : Qle_bool a b = false -> b < a.
Proof.
  intros H. apply Qnot_le_lt. intros Hle. apply Qle_bool_iff in Hle. congruence.
Qed.

(** The reduction keeps an entry of the array that no entry exceeds. *)
Lemma reduce_max (rest : list (string * Q)) (e : string * Q) :
  let m := fold_left (fun a b => if Qle_bool (snd a) (snd b) then b else a) rest e in
  In m (e :: rest) /\ forall x, In x (e :: rest) -> snd x <= snd m.
Proof.
  revert e. induction rest as [|b rest IH]; intros e; simpl.
  - split; [now left|]. intros x [<-|[]]. apply Qle_refl.
  - specialize (IH (if Qle_bool (snd e) (snd b) then b else e)).
    simpl in IH. destruct IH as [Hin Hmax].
    destruct (Qle_bool (snd e) (snd b)) eqn:E.
    + apply Qle_bool_iff in E. split.
      * destruct Hin as [<-|Hin]; [now right; left | now right; right].
      * intros x [<-|[<-|Hx]].
        -- apply Qle_trans with (snd b); [exact E | apply Hmax; now left].
        -- apply Hmax. now left.
        -- apply Hmax. now right.
    + apply Qle_bool_false_lt in E. split.
      * destruct Hin as [<-|Hin]; [now left | now right; right].
      * intros x [<-|[<-|Hx]].
        -- apply Hmax. now left.
        -- apply Qle_trans with (snd e); [lra | apply Hmax; now left].
        -- apply Hmax. now right.
Qed.

(** ** Facts about the analyze-frame handlers *)

Lemma mock_fallback_run (g : Rng) :
  let r i := samples g (i + cursor g)%nat in
  Analyze.mock_fallback g =
  (Respond 200 (JObj [
     ("faceDetected", JBool true);
     ("emotions", of_obj [("angry", r 0%nat * 10); ("disgust", r 1%nat * 5);
                          ("fear", r 2%nat * 30); ("happy", r 3%nat * 20);
                          ("sad", r 4%nat * 15); ("surprise", r 5%nat * 20);
                          ("neutral", r 6%nat * 40)]);
     ("dominantEmotion", JStr "neutral");
     ("shockScore", JNum (r 7%nat * 50));
     ("_note", JStr "Using mock data - Python engine unavailable")]),
   {| samples := samples g; cursor := 8 + cursor g |}).
Proof. reflexivity. Qed.

Lemma mock_analysis_answers (g : Rng) :
  exists normalized dominantEmotion shockScore,
    Mock.analysis g =
    (Some (normalized, dominantEmotion, shockScore),
     {| samples := samples g; cursor := 7 + cursor g |}).
Proof.
  unfold Mock.analysis. unfold bind at 1. rewrite (mockEmotions_run g).
  cbv zeta. rewrite normalize_seven. cbv zeta.
  do 3 eexists. reflexivity.
Qed.

(** C4 (as stated, fails): when the analyzer's run is rejected (here the
    script ends on a failed import) the handler answers 200 with
    [faceDetected] true, which is not the answer it gives for a frame
    without a face. *)
Lemma python_failure_reports_face :
  match fst (Analyze.analyze_frame frame_request env_analyzer_rejects half_rng) with
  | Respond status body =>
      status = 200%Z /\ field body "faceDetected" = Some (JBool true)
  | Next _ => False
  end /\
  fst (Analyze.analyze_frame frame_request env_no_face half_rng) = Analyze.no_face /\
  fst (Analyze.analyze_frame frame_request env_analyzer_rejects half_rng) <>
  fst (Analyze.analyze_frame frame_request env_no_face half_rng).
Proof.
  split; [|split].
  - vm_compute. split; reflexivity.
  - reflexivity.
  - vm_compute. intros H. discriminate H.
Qed.

(** C4 (amended): when the analyzer's run is rejected the handler does not
    abort: it answers 200 with mock data, that is [faceDetected] true, seven
    non-negative random emotion values, dominant emotion "neutral", a random
    shock score in [0, 50) and a note that the data is mock. *)
Theorem python_failure_mock_response
    (buffer err : string) (env : Analyze.Env) (g : Rng) :
  Analyze.mkdir env = Analyze.Done ->
  Analyze.writeFile env = Analyze.Done ->
  Analyze.python env = Analyze.Rejects err ->
  rng_ok g ->
  exists emotions shockScore g',
    Analyze.analyze_frame {| Analyze.file := Some buffer |} env g =
    (Respond 200 (JObj [
       ("faceDetected", JBool true);
       ("emotions", of_obj emotions);
       ("dominantEmotion", JStr "neutral");
       ("shockScore", JNum shockScore);
       ("_note", JStr "Using mock data - Python engine unavailable")]), g') /\
    keys emotions =
      ["angry"; "disgust"; "fear"; "happy"; "sad"; "surprise"; "neutral"] /\
    Forall (fun v => 0 <= v) (values emotions) /\
    0 <= shockScore /\ shockScore < 50.
Proof.
  intros Hmk Hwr Hpy Hg.
  unfold Analyze.analyze_frame. simpl Analyze.file. rewrite Hmk, Hwr, Hpy.
  rewrite mock_fallback_run. cbv zeta.
  sample_bounds Hg g.
  do 3 eexists. split; [reflexivity|]. split; [reflexivity|].
  split; [|split; lra].
  unfold values. simpl map. cbn [Nat.add] in *.
  repeat (apply List.Forall_cons; [lra|]). apply List.Forall_nil.
Qed.

Lemma python_failure_mock_response_witness :
  exists emotions shockScore g',
    Analyze.analyze_frame frame_request env_analyzer_rejects half_rng =
    (Respond 200 (JObj [
       ("faceDetected", JBool true);
       ("emotions", of_obj emotions);
       ("dominantEmotion", JStr "neutral");
       ("shockScore", JNum shockScore);
       ("_note", JStr "Using mock data - Python engine unavailable")]), g') /\
    keys emotions =
      ["angry"; "disgust"; "fear"; "happy"; "sad"; "surprise"; "neutral"] /\
    Forall (fun v => 0 <= v) (values emotions) /\
    0 <= shockScore /\ shockScore < 50.
Proof.
  apply (python_failure_mock_response "jpeg"
           "ModuleNotFoundError: No module named 'deepface'"
           env_analyzer_rejects half_rng); try reflexivity.
  intros n. simpl. split; [discriminate | reflexivity].
Defined.

(** C5: a frame that was uploaded and analysed, and in which the analyzer
    found no face, is answered 200 with [faceDetected] false; the error
    middleware is not reached. *)
Theorem no_face_is_answered
    (buffer : string) (env : Analyze.Env) (results : list Analyze.Analysis)
    (g : Rng) :
  Analyze.mkdir env = Analyze.Done ->
  Analyze.writeFile env = Analyze.Done ->
  Analyze.python env = Analyze.Resolves results ->
  detects_no_face results ->
  Analyze.analyze_frame {| Analyze.file := Some buffer |} env g =
  (Respond 200 (JObj [("faceDetected", JBool false);
                      ("message", JStr "No face detected in frame")]), g).
Proof.
  intros Hmk Hwr Hpy Hno.
  unfold Analyze.analyze_frame. simpl Analyze.file. rewrite Hmk, Hwr, Hpy.
  unfold Analyze.on_results, detects_no_face in *.
  destruct (head results) as [analysis|]; [|reflexivity].
  rewrite Hno. reflexivity.
Qed.

Lemma no_face_is_answered_witness :
  Analyze.analyze_frame frame_request env_no_face half_rng =
  (Respond 200 (JObj [("faceDetected", JBool false);
                      ("message", JStr "No face detected in frame")]), half_rng).
Proof.
  apply (no_face_is_answered "jpeg" env_no_face
           [{| Analyze.faceDetected := false;
               Analyze.emotions := None;
               Analyze.dominantEmotion := None |}] half_rng);
    reflexivity.
Defined.
















(** ** Facts about the video routes *)

(** C7: retrieving a report is read-only and deterministic: the file system
    is handed back as it was, a second retrieval answers as the first, and
    two file systems that store the same report give the same answer. *)
Theorem get_report_readonly_deterministic
    (JSON_parse : string -> option json) (fs1 fs2 : Video.FS) (videoId : string) :
  fs1 !! Video.reportPath videoId = fs2 !! Video.reportPath videoId ->
  snd (Video.get_report JSON_parse fs1 videoId) = fs1 /\
  Video.get_report JSON_parse (snd (Video.get_report JSON_parse fs1 videoId)) videoId =
    Video.get_report JSON_parse fs1 videoId /\
  fst (Video.get_report JSON_parse fs1 videoId) =
    fst (Video.get_report JSON_parse fs2 videoId).
Proof.
  intros Hsame.
  assert (Hro : forall fs, snd (Video.get_report JSON_parse fs videoId) = fs).
  { intros fs. unfold Video.get_report.
    destruct (Video.readFile fs (Video.reportPath videoId)) as [data|code].
    - destruct (JSON_parse data); reflexivity.
    - destruct (String.eqb code "ENOENT"); reflexivity. }
  split; [apply Hro|]. split; [rewrite Hro; reflexivity|].
  unfold Video.get_report, Video.readFile. rewrite Hsame.
  destruct (fs2 !! Video.reportPath videoId) as [[content|code]|].
  - destruct (JSON_parse content); reflexivity.
  - destruct (String.eqb code "ENOENT"); reflexivity.
  - reflexivity.
Qed.

Lemma get_report_readonly_deterministic_witness :
  snd (Video.get_report parse_empty_object fs_with_report "video-1.mp4") =
    fs_with_report /\
  Video.get_report parse_empty_object
    (snd (Video.get_report parse_empty_object fs_with_report "video-1.mp4"))
    "video-1.mp4" =
    Video.get_report parse_empty_object fs_with_report "video-1.mp4" /\
  fst (Video.get_report parse_empty_object fs_with_report "video-1.mp4") =
    fst (Video.get_report parse_empty_object fs_with_report_and_video
           "video-1.mp4").
Proof.
  apply (get_report_readonly_deterministic parse_empty_object
           fs_with_report fs_with_report_and_video "video-1.mp4").
  unfold fs_with_report_and_video. symmetry. apply lookup_insert_ne.
  intros H. vm_compute in H. discriminate H.
Defined.

(** C10: the status route answers 200 for every id: "completed" with the
    report available when the report file exists, "processing" without it
    otherwise. *)
Theorem get_status_total (fs : Video.FS) (videoId : string) :
  exists body,
    Video.get_status fs videoId = (Respond 200 body, fs) /\
    ((is_Some (fs !! Video.reportPath videoId) /\
      body = JObj [("videoId", JStr videoId);
                   ("status", JStr "completed");
                   ("reportAvailable", JBool true)]) \/
     (fs !! Video.reportPath videoId = None /\
      body = JObj [("videoId", JStr videoId);
                   ("status", JStr "processing");
                   ("reportAvailable", JBool false)])).
Proof.
  unfold Video.get_status, Video.access.
  destruct (fs !! Video.reportPath videoId) as [node|] eqn:E.
  - eexists. split; [reflexivity|]. left. split; [eauto | reflexivity].
  - eexists. split; [reflexivity|]. right. split; reflexivity.
Qed.

(** * Further properties of the code *)

(** ** The dominant emotion ([reduce] over [Object.entries]) *)

(** X1: the dominant emotion is a category of the object, and no category
    has a larger value. *)
Theorem dominant_is_maximal (o : obj) (k : string) :
  Mock.dominant o = Some k ->
  exists v, In (k, v) o /\ forall k' v', In (k', v') o -> v' <= v.
Proof.
  destruct o as [|e rest]; [discriminate|].
  unfold Mock.dominant.
  pose proof (reduce_max rest e) as HM. cbv zeta in HM. revert HM.
  generalize (fold_left (fun a b => if Qle_bool (snd a) (snd b) then b else a) rest e).
  intros [km vm] [Hin Hmax] H. injection H as <-.
  exists vm. split; [exact Hin|].
  intros k' v' Hx. exact (Hmax (k', v') Hx).
Qed.

Lemma dominant_is_maximal_witness :
  exists v, In ("fear", v) three_emotions /\
            forall k' v', In (k', v') three_emotions -> v' <= v.
Proof.
  apply (dominant_is_maximal three_emotions "fear"). reflexivity.
Defined.

(** X2: among equal largest values the later category wins: an entry
    appended to an object is dominant as soon as no earlier value exceeds
    it. *)
Theorem dominant_tie_goes_to_later (o : obj) (k : string) (v : Q) :
  (forall k' v', In (k', v') o -> v' <= v) ->
  Mock.dominant (o ++ [(k, v)]) = Some k.
Proof.
  intros Hle. destruct o as [|e rest]; [reflexivity|].
  unfold Mock.dominant. rewrite <- app_comm_cons, fold_left_app.
  pose proof (reduce_max rest e) as HM. cbv zeta in HM. revert HM.
  generalize (fold_left (fun a b => if Qle_bool (snd a) (snd b) then b else a) rest e).
  intros [km vm] [Hin _]. cbn [fold_left snd].
  destruct (Qle_bool vm v) eqn:E; [reflexivity|].
  apply Qle_bool_false_lt in E. specialize (Hle km vm Hin). lra.
Qed.

Lemma dominant_tie_goes_to_later_witness :
  Mock.dominant ([("fear", 50); ("happy", 30)] ++ [("neutral", 50)]) = Some "neutral".
Proof.
  apply (dominant_tie_goes_to_later [("fear", 50); ("happy", 30)] "neutral" 50).
  intros k' v' [H|[H|[]]]; injection H as _ <-; discriminate.
Defined.

(** ** The normalization loop on any object *)










(** ** More on the shock score *)

(** X4: a category that the score does not read (such as "neutral") has no
    effect on it. *)
Theorem calculateShockScore_ignores_other_keys (e : obj) (k : string) (v : Q) :
  ~ In k scored_keys ->
  calculateShockScore (set e k v) = calculateShockScore e.
Proof.
  intros Hk. unfold calculateShockScore, weighted.
  assert (Hget : forall c, In c scored_keys -> get (set e k v) c = get e c).
  { intros c Hc. apply get_set_ne. intros ->. exact (Hk Hc). }
  rewrite !Hget; [reflexivity | unfold scored_keys; simpl; auto 10 ..].
Qed.

Lemma calculateShockScore_ignores_other_keys_witness :
  calculateShockScore (set scenario_frame "neutral" 70) =
  calculateShockScore scenario_frame.
Proof.
  apply (calculateShockScore_ignores_other_keys scenario_frame "neutral" 70).
  simpl. intros H. repeat (destruct H as [H|H]; [discriminate H|]). exact H.
Defined.

Lemma weighted_le_twice_sum (e : obj) : nonneg e -> weighted e <= 2 * scored_sum e.
Proof.
  intros H. unfold weighted, scored_sum, FEAR_WEIGHT, SURPRISE_WEIGHT,
    DISGUST_WEIGHT, HAPPY_WEIGHT, ANGRY_WEIGHT, SAD_WEIGHT.
  pose proof (or_zero_nonneg e "fear" H).
  pose proof (or_zero_nonneg e "surprise" H).
  pose proof (or_zero_nonneg e "disgust" H).
  pose proof (or_zero_nonneg e "happy" H).
  pose proof (or_zero_nonneg e "angry" H).
  pose proof (or_zero_nonneg e "sad" H).
  lra.
Qed.

Lemma score_of_percentages (e : obj) :
  nonneg e -> scored_sum e <= 100 -> calculateShockScore e <= (571 # 10).
Proof.
  intros Hnn Hsum. pose proof (weighted_le_twice_sum e Hnn) as Hw.
  rewrite calculateShockScore_unfold.
  apply Qle_trans with (inject_Z (Math_round (4000 # 7)) / 10).
  - apply tenth_le, Math_round_mono.
    pose proof (Q.le_min_r 100 (weighted e * (2 # 7))) as Hmin. lra.
  - vm_compute. discriminate.
Qed.

(** X5: for percentages, that is non-negative values whose scored
    categories sum to at most 100, the score is at most 57.1: the cap at 100
    is never reached. *)
Theorem calculateShockScore_of_percentages (e : obj) :
  nonneg e -> scored_sum e <= 100 -> calculateShockScore e <= (571 # 10).
Proof. exact (score_of_percentages e). Qed.

Lemma calculateShockScore_of_percentages_witness :
  calculateShockScore three_emotions <= (571 # 10).
Proof.
  apply (calculateShockScore_of_percentages three_emotions).
  - intros k v. unfold three_emotions. simpl.
    repeat (match goal with
            | |- (if ?b then _ else _) = _ -> _ => destruct b
            end);
      intros E; inversion E; discriminate.
  - vm_compute. discriminate.
Defined.

Lemma lt_true (a b : Q) : a < b -> Webcam.lt a b = true.
Proof.
  intros H. unfold Webcam.lt. apply negb_true_iff.
  destruct (Qle_bool b a) eqn:E; [|reflexivity].
  apply Qle_bool_iff in E. lra.
Qed.

(** X6: the colour that the webcam page gives to the score of percentages
    is green, orange or deep orange, never one of the two reds. *)
Theorem percentages_are_never_red (e : obj) :
  nonneg e -> scored_sum e <= 100 ->
  In (Webcam.getShockScoreColor (calculateShockScore e))
     ["#10b981"; "#f59e0b"; "#f97316"].
Proof.
  intros Hnn Hsum.
  pose proof (score_of_percentages e Hnn Hsum) as Hs.
  unfold Webcam.getShockScoreColor.
  destruct (Webcam.lt (calculateShockScore e) 20); [now left|].
  destruct (Webcam.lt (calculateShockScore e) 40); [now right; left|].
  rewrite (lt_true (calculateShockScore e) 60) by lra.
  now right; right; left.
Qed.

Lemma percentages_are_never_red_witness :
  In (Webcam.getShockScoreColor (calculateShockScore three_emotions))
     ["#10b981"; "#f59e0b"; "#f97316"].
Proof.
  apply (percentages_are_never_red three_emotions).
  - intros k v. unfold three_emotions. simpl.
    repeat (match goal with
            | |- (if ?b then _ else _) = _ -> _ => destruct b
            end);
      intros E; inversion E; discriminate.
  - vm_compute. discriminate.
Defined.

(** ** The mock analysis, end to end *)

Lemma weighted_seven (a b c d e f h : Q) :
  weighted [("angry", a); ("disgust", b); ("fear", c); ("happy", d);
            ("sad", e); ("surprise", f); ("neutral", h)] ==
  c * 2 + f * (15 # 10) + b * (8 # 10) + d * (3 # 10) + a * (2 # 10) + e * (1 # 10).
Proof.
  unfold weighted. cbn [get String.eqb Ascii.eqb Bool.eqb].
  rewrite !or_zero_Some. reflexivity.
Qed.

(** Bounds on the weighted sum carry over to the score. *)
Lemma calculateShockScore_between (e : obj) (lo hi : Q) :
  lo <= weighted e -> weighted e <= hi -> lo * (2 # 7) <= 100 ->
  inject_Z (Math_round (lo * (2 # 7) * 10)) / 10 <= calculateShockScore e /\
  calculateShockScore e <= inject_Z (Math_round (hi * (2 # 7) * 10)) / 10.
Proof.
  intros Hlo Hhi Hcap. rewrite calculateShockScore_unfold.
  pose proof (Q.le_min_r 100 (weighted e * (2 # 7))) as Hr.
  assert (Hl : lo * (2 # 7) <= Qmin 100 (weighted e * (2 # 7)))
    by (apply Q.min_glb; lra).
  split; apply tenth_le, Math_round_mono; lra.
Qed.

(** The range of the score, for use in the facts about the routes. *)
Lemma score_range (e : obj) :
  nonneg e -> 0 <= calculateShockScore e /\ calculateShockScore e <= 100.
Proof.
  intros H. pose proof (weighted_nonneg e H) as Hw.
  destruct (calculateShockScore_between e 0 (weighted e)) as [H0 H1];
    [exact Hw | apply Qle_refl | vm_compute; discriminate |].
  split.
  - eapply Qle_trans; [|exact H0]. vm_compute. discriminate.
  - rewrite calculateShockScore_unfold.
    apply Qle_trans with (inject_Z (Math_round 1000) / 10).
    + apply tenth_le, Math_round_mono.
      pose proof (Q.le_min_l 100 (weighted e * (2 # 7))). lra.
    + vm_compute. discriminate.
Qed.

Lemma mock_analysis_score (g : Rng) :
  rng_ok g ->
  exists normalized dominantEmotion shockScore,
    Mock.analysis g =
    (Some (normalized, dominantEmotion, shockScore),
     {| samples := samples g; cursor := 7 + cursor g |}) /\
    (153 # 10) <= shockScore /\ shockScore <= (482 # 10).
Proof.
  intros Hg. sample_bounds Hg g. cbn [Nat.add] in *.
  unfold Mock.analysis. unfold bind at 1. rewrite (mockEmotions_run g).
  cbv zeta. rewrite normalize_seven. cbv zeta. cbn [Nat.add].
  set (a := samples g (cursor g) * 15).
  set (b := samples g (S (cursor g)) * 10).
  set (c := 20 + samples g (S (S (cursor g))) * 40).
  set (d := samples g (S (S (S (cursor g)))) * 25).
  set (e := samples g (S (S (S (S (cursor g))))) * 15).
  set (f := 10 + samples g (S (S (S (S (S (cursor g)))))) * 30).
  set (h := 10 + samples g (S (S (S (S (S (S (cursor g))))))) * 30).
  set (t := Mock.total _).
  assert (Et : t == 0 + a + b + c + d + e + f + h) by reflexivity.
  assert (Ht : 0 < t) by (unfold a, b, c, d, e, f, h in Et; lra).
  do 3 eexists. split; [reflexivity|].
  set (n := c * 2 + f * (15 # 10) + b * (8 # 10) + d * (3 # 10) +
            a * (2 # 10) + e * (1 # 10)).
  assert (Ew : weighted [("angry", a / t * 100); ("disgust", b / t * 100);
                         ("fear", c / t * 100); ("happy", d / t * 100);
                         ("sad", e / t * 100); ("surprise", f / t * 100);
                         ("neutral", h / t * 100)] == n / t * 100).
  { rewrite weighted_seven. unfold n, Qdiv. ring. }
  assert (Hlo : (67 # 125) <= n / t).
  { apply Qle_shift_div_l; [exact Ht|]. unfold n, a, b, c, d, e, f, h in *. lra. }
  assert (Hhi : n / t <= (135 # 80)).
  { apply Qle_shift_div_r; [exact Ht|]. unfold n, a, b, c, d, e, f, h in *. lra. }
  match goal with
  | |- _ <= calculateShockScore ?o /\ _ =>
      destruct (calculateShockScore_between o (268 # 5) (675 # 4))
        as [Hbelow Habove];
        [rewrite Ew; lra | rewrite Ew; lra | vm_compute; discriminate |]
  end.
  split.
  - eapply Qle_trans; [|exact Hbelow]. vm_compute. discriminate.
  - eapply Qle_trans; [exact Habove|]. vm_compute. discriminate.
Qed.

(** X7: the simple route and the Netlify function, which answer with the
    mock analysis, always answer 200 and never 500, with a shock score
    between 15.3 and 48.2. *)
Theorem mock_endpoints_score_range (g : Rng) :
  rng_ok g ->
  (exists body s,
     serve ExpressAnalyzeSimple g = (200%Z, Some body) /\
     field body "shockScore" = Some (JNum s) /\
     (153 # 10) <= s /\ s <= (482 # 10)) /\
  (exists body s,
     serve (NetlifyFunction post_event) g = (200%Z, Some body) /\
     field body "shockScore" = Some (JNum s) /\
     (153 # 10) <= s /\ s <= (482 # 10)).
Proof.
  intros Hg. destruct (mock_analysis_score g Hg) as (n & d & s & E & Hlo & Hhi).
  split.
  - exists (JObj (Mock.aggregate (n, d, s) ++ [("_mode", JStr "mock")])), s.
    split; [|split; [reflexivity | split; assumption]].
    unfold serve, AnalyzeSimple.analyze_frame. unfold bind. rewrite E.
    reflexivity.
  - exists (JObj (Mock.aggregate (n, d, s) ++
                  [("_mode", JStr "mock"); ("_platform", JStr "netlify")])), s.
    split; [|split; [reflexivity | split; assumption]].
    unfold serve, Netlify.handler, post_event. cbn [Netlify.httpMethod].
    change (String.eqb "POST" "OPTIONS") with false.
    change (String.eqb "POST" "POST") with true.
    cbn [negb]. cbv iota. unfold bind. rewrite E. reflexivity.
Qed.

Lemma mock_endpoints_score_range_witness :
  (exists body s,
     serve ExpressAnalyzeSimple half_rng = (200%Z, Some body) /\
     field body "shockScore" = Some (JNum s) /\
     (153 # 10) <= s /\ s <= (482 # 10)) /\
  (exists body s,
     serve (NetlifyFunction post_event) half_rng = (200%Z, Some body) /\
     field body "shockScore" = Some (JNum s) /\
     (153 # 10) <= s /\ s <= (482 # 10)).
Proof.
  apply (mock_endpoints_score_range half_rng).
  intros n. simpl. split; [discriminate | reflexivity].
Defined.

(** ** The analyze route, whatever the analyzer does *)

(** X8: once the frame is stored, every settled run of the analyzer (one
    that was resolved, with a face, without a face, with no result or with a
    result without emotions, or one that was rejected) is answered 200 with
    a boolean [faceDetected]; the error middleware is not reached. *)
Theorem stored_frame_is_always_answered
    (buffer : string) (env : Analyze.Env) (g : Rng) :
  Analyze.mkdir env = Analyze.Done ->
  Analyze.writeFile env = Analyze.Done ->
  exists body detected,
    fst (Analyze.analyze_frame {| Analyze.file := Some buffer |} env g) =
      Respond 200 body /\
    field body "faceDetected" = Some (JBool detected).
Proof.
  intros Hmk Hwr. unfold Analyze.analyze_frame. cbn [Analyze.file].
  rewrite Hmk, Hwr.
  destruct (Analyze.python env) as [err|results].
  - rewrite mock_fallback_run. cbv zeta. do 2 eexists. split; reflexivity.
  - unfold Analyze.on_results. destruct (head results) as [analysis|].
    + destruct (Analyze.faceDetected analysis).
      * destruct (Analyze.emotions analysis) as [emotions|].
        -- do 2 eexists. split; reflexivity.
        -- rewrite mock_fallback_run. cbv zeta. do 2 eexists. split; reflexivity.
      * do 2 eexists. split; reflexivity.
    + do 2 eexists. split; reflexivity.
Qed.

Lemma stored_frame_is_always_answered_witness :
  exists body detected,
    fst (Analyze.analyze_frame frame_request env_analyzer_rejects half_rng) =
      Respond 200 body /\
    field body "faceDetected" = Some (JBool detected).
Proof.
  apply (stored_frame_is_always_answered "jpeg" env_analyzer_rejects half_rng);
    reflexivity.
Defined.

(** X9: a face that the analyzer reports with non-negative emotion values
    is answered with those values unchanged and with their shock score,
    which lies in [0, 100], and no random number is drawn. *)
Theorem detected_face_is_scored
    (buffer : string) (env : Analyze.Env) (g : Rng)
    (analysis : Analyze.Analysis) (rest : list Analyze.Analysis) (emotions : obj) :
  Analyze.mkdir env = Analyze.Done ->
  Analyze.writeFile env = Analyze.Done ->
  Analyze.python env = Analyze.Resolves (analysis :: rest) ->
  Analyze.faceDetected analysis = true ->
  Analyze.emotions analysis = Some emotions ->
  nonneg emotions ->
  exists body s,
    Analyze.analyze_frame {| Analyze.file := Some buffer |} env g =
      (Respond 200 body, g) /\
    field body "emotions" = Some (of_obj emotions) /\
    field body "shockScore" = Some (JNum s) /\
    s = calculateShockScore emotions /\ 0 <= s /\ s <= 100.
Proof.
  intros Hmk Hwr Hpy Hface Hemo Hnn.
  unfold Analyze.analyze_frame. cbn [Analyze.file]. rewrite Hmk, Hwr, Hpy.
  unfold Analyze.on_results. cbn [head]. rewrite Hface, Hemo.
  destruct (score_range emotions Hnn) as [Hbelow Habove].
  destruct (Analyze.dominantEmotion analysis);
    do 2 eexists; (split; [reflexivity|]); (split; [reflexivity|]);
    (split; [reflexivity|]); (split; [reflexivity|]); split; assumption.
Qed.

Lemma detected_face_is_scored_witness :
  exists body s,
    Analyze.analyze_frame frame_request env_face half_rng =
      (Respond 200 body, half_rng) /\
    field body "emotions" = Some (of_obj three_emotions) /\
    field body "shockScore" = Some (JNum s) /\
    s = calculateShockScore three_emotions /\ 0 <= s /\ s <= 100.
Proof.
  apply (detected_face_is_scored "jpeg" env_face half_rng
           {| Analyze.faceDetected := true;
              Analyze.emotions := Some three_emotions;
              Analyze.dominantEmotion := Some "fear" |} [] three_emotions);
    try reflexivity.
  intros k v. unfold three_emotions. simpl.
  repeat (match goal with
          | |- (if ?b then _ else _) = _ -> _ => destruct b
          end);
    intros E; inversion E; discriminate.
Defined.

(** ** The Netlify function by method *)

(** X10: the Netlify function answers every event with status 200 or 405
    and with the header that allows any origin; it answers 405 exactly for
    the methods other than OPTIONS and POST, and a preflight (OPTIONS) gets
    an empty body without a random number being drawn. *)
Theorem netlify_method_dispatch (event : Netlify.Event) (g : Rng) :
  let r := fst (Netlify.handler event g) in
  let method := Netlify.httpMethod event in
  In ("Access-Control-Allow-Origin", "*") (Netlify.headers r) /\
  (Netlify.statusCode r = 200%Z \/ Netlify.statusCode r = 405%Z) /\
  (Netlify.statusCode r = 405%Z <-> method <> "OPTIONS" /\ method <> "POST") /\
  (method = "OPTIONS" ->
   Netlify.body r = Netlify.Raw "" /\ snd (Netlify.handler event g) = g).
Proof.
  cbv zeta. unfold Netlify.handler.
  destruct (String.eqb_spec (Netlify.httpMethod event) "OPTIONS") as [Ho|Ho].
  - cbn. split; [now left|]. split; [now left|]. split; [|auto].
    split; [discriminate|]. intros [H _]. contradiction.
  - destruct (String.eqb_spec (Netlify.httpMethod event) "POST") as [Hp|Hp].
    + cbn [negb]. cbv iota.
      destruct (mock_analysis_answers g) as (n & d & s & E).
      unfold bind. rewrite E. cbn [fst Netlify.statusCode Netlify.headers].
      split; [now left|]. split; [now left|]. split; [|contradiction].
      split; [discriminate|]. intros [_ H]. contradiction.
    + cbn. split; [now left|]. split; [now right|]. split; [|contradiction].
      split; [auto | reflexivity].
Qed.

Lemma netlify_method_dispatch_witness :
  Netlify.statusCode
    (fst (Netlify.handler {| Netlify.httpMethod := "GET" |} half_rng)) = 405%Z <->
  "GET" <> "OPTIONS" /\ "GET" <> "POST".
Proof.
  apply (netlify_method_dispatch {| Netlify.httpMethod := "GET" |} half_rng).
Defined.

(** ** Paths of the upload directory *)







(** ** The life of a video: status, report, deletion *)

Lemma lookup_unlink_ne (fs : Video.FS) (p q : string) :
  p <> q -> Video.unlink fs p !! q = fs !! q.
Proof.
  intros Hne. unfold Video.unlink.
  destruct (Video.is_directory (fs !! p)); [reflexivity|].
  now apply lookup_delete_ne.
Qed.


Lemma unlink_unfold (fs : Video.FS) (p : string) :
  Video.unlink fs p = if Video.is_directory (fs !! p) then fs else delete p fs.
Proof. reflexivity. Qed.

Lemma unlink_idemp (fs : Video.FS) (p : string) :
  Video.unlink (Video.unlink fs p) p = Video.unlink fs p.
Proof.
  rewrite (unlink_unfold fs p).
  destruct (Video.is_directory (fs !! p)) eqn:E.
  - now rewrite unlink_unfold, E.
  - rewrite unlink_unfold, lookup_delete_eq. cbn. apply delete_delete_eq.
Qed.

Lemma unlink_comm (fs : Video.FS) (p q : string) :
  Video.unlink (Video.unlink fs q) p = Video.unlink (Video.unlink fs p) q.
Proof.
  destruct (decide (p = q)) as [->|Hne]; [reflexivity|].
  assert (Hp : Video.is_directory (Video.unlink fs q !! p) =
               Video.is_directory (fs !! p))
    by (rewrite lookup_unlink_ne; congruence).
  assert (Hq : Video.is_directory (Video.unlink fs p !! q) =
               Video.is_directory (fs !! q))
    by (rewrite lookup_unlink_ne; congruence).
  rewrite (unlink_unfold (Video.unlink fs q) p), Hp.
  rewrite (unlink_unfold (Video.unlink fs p) q), Hq.
  rewrite (unlink_unfold fs p), (unlink_unfold fs q).
  destruct (Video.is_directory (fs !! p)), (Video.is_directory (fs !! q));
    try reflexivity.
  apply delete_delete.
Qed.




(** X12: deleting a video a second time changes nothing more. *)
Theorem delete_video_idempotent (fs : Video.FS) (videoId : string) :
  Video.delete_video (snd (Video.delete_video fs videoId)) videoId =
  Video.delete_video fs videoId.
Proof.
  unfold Video.delete_video. cbn [snd]. f_equal.
  rewrite (unlink_comm (Video.unlink fs (Video.videoPath videoId))
             (Video.videoPath videoId) (Video.reportPath videoId)).
  rewrite (unlink_idemp fs (Video.videoPath videoId)).
  apply unlink_idemp.
Qed.







(** X16: a report file that is not valid JSON is announced as available by
    the status route, yet retrieving it is answered 500 by the error
    middleware, with the error's stack only in development. *)
Theorem corrupt_report_is_available_but_fails
    (JSON_parse : string -> option json) (fs : Video.FS) (videoId data : string)
    (development : bool) (stack : string) :
  fs !! Video.reportPath videoId = Some (Video.File data) ->
  JSON_parse data = None ->
  field_of_status_flag (fst (Video.get_status fs videoId)) = Some (JBool true) /\
  exists body error,
    Server.answer development stack (fst (Video.get_report JSON_parse fs videoId)) =
      (500%Z, body) /\
    field body "error" = Some error /\
    field error "status" = Some (JNum 500) /\
    (field error "stack" = None <-> development = false).
Proof.
  intros Hfile Hparse.
  unfold field_of_status_flag, Video.get_status, Video.get_report, Video.access,
    Video.readFile.
  rewrite Hfile, Hparse. split; [reflexivity|].
  unfold Server.answer, Server.errorHandler. cbn [fst].
  do 2 eexists. split; [reflexivity|]. split; [reflexivity|].
  destruct development; cbn; (split; [reflexivity|]).
  - split; intros H; discriminate H.
  - split; reflexivity.
Qed.

Lemma corrupt_report_is_available_but_fails_witness :
  field_of_status_flag (fst (Video.get_status fs_with_report "video-1.mp4")) =
    Some (JBool true) /\
  exists body error,
    Server.answer false ""
      (fst (Video.get_report parse_nothing fs_with_report "video-1.mp4")) =
      (500%Z, body) /\
    field body "error" = Some error /\
    field error "status" = Some (JNum 500) /\
    (field error "stack" = None <-> false = false).
Proof.
  apply (corrupt_report_is_available_but_fails parse_nothing fs_with_report
           "video-1.mp4" "{}" false "").
  - unfold fs_with_report. apply lookup_singleton_eq.
  - reflexivity.
Defined.

(** ** Upload *)

(** X17: the upload route does not read the body's "studioName" field:
    two bodies that differ only there are answered alike. *)
Theorem upload_ignores_studioName
    (file : option VideoUpload.UploadedFile) (body body' : list (string * string))
    (uploadedAt : string) :
  (forall k, k <> "studioName" ->
     VideoUpload.text_field body k = VideoUpload.text_field body' k) ->
  VideoUpload.upload file body uploadedAt = VideoUpload.upload file body' uploadedAt.
Proof.
  intros H. unfold VideoUpload.upload. destruct file as [file|]; [|reflexivity].
  rewrite (H "filmTitle"); [|discriminate].
  rewrite (H "genre"); [|discriminate].
  rewrite (H "studoName"); [|discriminate].
  reflexivity.
Qed.

Lemma upload_ignores_studioName_witness :
  VideoUpload.upload (Some uploaded_video) [("studioName", "A24")] "2025-11-20" =
  VideoUpload.upload (Some uploaded_video) [] "2025-11-20".
Proof.
  apply (upload_ignores_studioName (Some uploaded_video)
           [("studioName", "A24")] [] "2025-11-20").
  intros k Hk. cbn [VideoUpload.text_field].
  destruct (String.eqb_spec "studioName" k) as [E|E];
    [exfalso; apply Hk; symmetry; exact E | reflexivity].
Defined.

(** X18: every upload that carries a file and a body of plain fields, each
    sent once, is answered 200 with a metadata object whose film title,
    genre and studio name are strings that are never empty. *)
Theorem upload_metadata_never_empty
    (file : VideoUpload.UploadedFile) (body : list (string * string))
    (uploadedAt : string) :
  plain_body body ->
  exists answer metadata filmTitle genre studioName,
    VideoUpload.upload (Some file) body uploadedAt = Respond 200 answer /\
    field answer "metadata" = Some metadata /\
    field metadata "filmTitle" = Some (JStr filmTitle) /\
    field metadata "genre" = Some (JStr genre) /\
    field metadata "studioName" = Some (JStr studioName) /\
    filmTitle <> "" /\ genre <> "" /\ studioName <> "".
Proof.
  intros _.
  assert (Hd : forall x d, d <> "" -> VideoUpload.or_default x d <> "").
  { intros [v|] d Hd; simpl; [|exact Hd].
    destruct (String.eqb_spec v ""); [exact Hd | assumption]. }
  do 5 eexists. unfold VideoUpload.upload.
  split; [reflexivity|]. split; [reflexivity|]. split; [reflexivity|].
  split; [reflexivity|]. split; [reflexivity|].
  split; [|split]; apply Hd; discriminate.
Qed.

Lemma upload_metadata_never_empty_witness :
  exists answer metadata filmTitle genre studioName,
    VideoUpload.upload (Some uploaded_video) [("filmTitle", "")] "2025-11-20" =
      Respond 200 answer /\
    field answer "metadata" = Some metadata /\
    field metadata "filmTitle" = Some (JStr filmTitle) /\
    field metadata "genre" = Some (JStr genre) /\
    field metadata "studioName" = Some (JStr studioName) /\
    filmTitle <> "" /\ genre <> "" /\ studioName <> "".
Proof.
  apply (upload_metadata_never_empty uploaded_video [("filmTitle", "")]
           "2025-11-20").
  split.
  - apply List.NoDup_cons; [intros [] | apply List.NoDup_nil].
  - apply List.Forall_cons; [reflexivity | apply List.Forall_nil].
Defined.
